(** * The Telegram dialog lister

    A shallow embedding of [telegram_summarizer/utils/telegram_dialog_lister.py]
    and [telegram_summarizer/utils/dialog_info.py], together with the
    [async with] use of the lister made by [telegram_summarizer/test_loader.py].

    Python objects become records, [Optional] values become [option], raised
    exceptions become the [Raises] outcome of a small state-and-exception
    monad.  The Telethon client and the process environment are outside the
    repository: they are an explicit [World] whose replies are data, so that
    every statement below is quantified over what the remote side answers. *)

From Stdlib Require Import ZArith Ascii String List.
From stdpp Require Import base strings gmap pretty.

Open Scope Z_scope.
Open Scope string_scope.
Open Scope list_scope.

(** ** Values of the program *)

Module Py.

(** Truth value of an [Optional[str]]: [None] and the empty string are
    falsy. *)
Definition truthy_str (v : option string) : bool :=
  match v with
  | Some s => negb (String.eqb s "")
  | None => false
  end.

(** Truth value of an [Optional[bool]]. *)
Definition truthy_flag (v : option bool) : bool :=
  match v with
  | Some b => b
  | None => false
  end.

(** [a or b] where [a] is an [Optional[str]] and [b] a [str]. *)
Definition or_str (a : option string) (b : string) : string :=
  match a with
  | Some s => if truthy_str a then s else b
  | None => b
  end.

End Py.

(** The entities Telethon hands out.  [isinstance] in the source inspects the
    class, so the class is the constructor; the attributes are those the
    source reads.  [participants_count] is what
    [getattr(entity, 'participants_count', None)] gives: [None] when the
    attribute is missing or holds [None].  [OtherEntity] stands for every
    class that is neither [User], [Chat] nor [Channel] (for instance
    [ChatForbidden]). *)
Inductive entity : Type :=
| User (id : Z)
| Chat (id : Z) (participants_count : option Z)
| Channel (id : Z) (broadcast : option bool) (participants_count : option Z)
| OtherEntity (id : Z).

Definition entity_id_of (e : entity) : Z :=
  match e with
  | User i | Chat i _ | Channel i _ _ | OtherEntity i => i
  end.

(** One item of [client.iter_dialogs()]: the source reads [dialog.name] and
    [dialog.entity]. *)
Record dialog : Type := Dialog {
  dialog_name : option string;
  dialog_entity : entity
}.

(** [dialog_info.py]: the [DialogInfo] dataclass. *)
Record DialogInfo : Type := mkDialogInfo {
  name : string;
  entity_id : Z;
  entity_type : string;
  participant_count : option Z
}.

(** ** The classifier: [TelegramDialogLister._get_entity_type] *)

Definition _get_entity_type (e : entity) : string * option Z :=
  match e with
  | User _ => ("Private Chat", None)
  | Chat _ participants_count => ("Basic Group", participants_count)
  | Channel _ broadcast participants_count =>
      if Py.truthy_flag broadcast
      then ("Channel (broadcast)", participants_count)
      else ("Supergroup", participants_count)
  | OtherEntity _ => ("Unknown", None)
  end.

(** The five labels of the normalized record. *)
Definition category_labels : list string :=
  ["Private Chat"; "Basic Group"; "Supergroup"; "Channel (broadcast)"; "Unknown"].

(** The body of the [async for] loop of [list_dialogs]: one [DialogInfo] per
    dialog. *)
Definition dialog_info_of (d : dialog) : DialogInfo :=
  let entity := dialog_entity d in
  let '(entity_type, participant_count) := _get_entity_type entity in
  mkDialogInfo (Py.or_str (dialog_name d) "Unnamed")
               (entity_id_of entity) entity_type participant_count.

(** ** Exceptions and outcomes *)

(** The exceptions that travel through the lister.  [FloodWaitError] carries
    the wait the remote reports ([e.seconds]); the others carry the text
    [str(e)] prints.  [RemoteError] stands for every other subclass of
    [Exception] the transport may raise; [CancelledError] is the one
    [BaseException] of the model (task cancellation, keyboard interrupt),
    which an [except Exception] clause does not catch. *)
Inductive exn : Type :=
| FloodWaitError (seconds : Z)
| SessionPasswordNeededError (text : string)
| ValueError (text : string)
| RuntimeError (text : string)
| AttributeError (text : string)
| EOFError (text : string)
| RemoteError (text : string)
| CancelledError.

(** [isinstance(e, Exception)]. *)
Definition is_Exception (e : exn) : bool :=
  match e with
  | CancelledError => false
  | _ => true
  end.

(** [str(e)], as the f-strings of the log messages print it. *)
Definition str_exn (e : exn) : string :=
  match e with
  | FloodWaitError seconds =>
      "A wait of " +:+ pretty seconds +:+ " seconds is required"
  | SessionPasswordNeededError t | ValueError t | RuntimeError t
  | AttributeError t | EOFError t | RemoteError t => t
  | CancelledError => ""
  end.

Inductive outcome (A : Type) : Type :=
| Returns (a : A)
| Raises (e : exn).
Arguments Returns {A} a.
Arguments Raises {A} e.

(** ** The state-and-exception monad

    A computation runs on a state [S] and ends by returning or by raising;
    the state it leaves is kept in both cases, as Python keeps the
    assignments made before an exception. *)
Definition M (S A : Type) : Type := S -> outcome A * S.

#[global] Instance M_ret {S} : MRet (M S) :=
  fun A (a : A) (s : S) => (Returns a, s).

#[global] Instance M_bind {S} : MBind (M S) :=
  fun A B (k : A -> M S B) (m : M S A) (s : S) =>
    match m s with
    | (Returns a, s') => k a s'
    | (Raises e, s') => (Raises e, s')
    end.

Definition raise {S A} (e : exn) : M S A := fun s => (Raises e, s).

(** [try: body  except ...: handler], the handler choosing by the exception
    what each [except] clause does (and re-raising what no clause catches). *)
Definition try_except {S A} (body : M S A) (handler : exn -> M S A) : M S A :=
  fun s =>
    match body s with
    | (Returns a, s') => (Returns a, s')
    | (Raises e, s') => handler e s'
    end.

(** [body] followed by [release] whatever [body] did; the outcome of [body]
    stands unless [release] raises itself.  This is what [async with] does
    with [__aexit__] when [__aexit__] returns a falsy value. *)
Definition then_always {S A} (body : M S A) (release : M S unit) : M S A :=
  fun s =>
    match body s with
    | (r, s') =>
        match release s' with
        | (Returns _, s'') => (r, s'')
        | (Raises e, s'') => (Raises e, s'')
        end
    end.

(** ** The world outside the repository *)

Inductive log_level : Type := INFO | ERROR.

(** What the program does that can be seen from outside, in the order it
    does it. *)
Inductive event : Type :=
| Log (level : log_level) (text : string)
| Input (prompt : string)
| ClientStart (password : option string)
| ClientNextDialog
| ClientDisconnect.

(** A call of the network: everything but logging and the prompt. *)
Definition is_network (ev : event) : bool :=
  match ev with
  | ClientStart _ | ClientNextDialog | ClientDisconnect => true
  | Log _ _ | Input _ => false
  end.

(** The answer of the remote side to one [client.start(...)]: success, or an
    exception together with whether the transport is open when it is raised
    (Telethon opens the connection first and authenticates afterwards). *)
Inductive start_reply : Type :=
| StartOk
| StartRaises (e : exn) (link_up : bool).

(** What the dialog iterator does at one [__anext__]: it hands out a dialog
    or raises.  The end of the list is the end of the iteration. *)
Inductive feed_item : Type :=
| Deliver (d : dialog)
| Fault (e : exn).

Record World : Type := mkWorld {
  environ : gmap string string;        (* os.environ *)
  start_reply_at : nat -> start_reply; (* answer to the n-th start call *)
  start_calls : nat;                   (* start calls made so far *)
  dialog_feed : list feed_item;        (* what iter_dialogs still holds *)
  stdin : list string;                 (* lines input() will read *)
  trace : list event
}.

(** [telethon.TelegramClient], as far as the lister looks at it. *)
Record TelegramClient : Type := mkClient {
  client_session : string;
  client_api_id : string;
  client_api_hash : string;
  connected : bool
}.

Record TelegramDialogLister : Type := mkLister {
  session_name : string;
  api_id : string;
  api_hash : string;
  client : option TelegramClient
}.

(** A lister object in its world: the state the methods run on. *)
Record Machine : Type := mkMachine {
  self : TelegramDialogLister;
  world : World
}.

Definition set_trace (t : list event) (w : World) : World :=
  mkWorld (environ w) (start_reply_at w) (start_calls w) (dialog_feed w) (stdin w) t.
Definition set_start_calls (n : nat) (w : World) : World :=
  mkWorld (environ w) (start_reply_at w) n (dialog_feed w) (stdin w) (trace w).
Definition set_dialog_feed (f : list feed_item) (w : World) : World :=
  mkWorld (environ w) (start_reply_at w) (start_calls w) f (stdin w) (trace w).
Definition set_stdin (l : list string) (w : World) : World :=
  mkWorld (environ w) (start_reply_at w) (start_calls w) (dialog_feed w) l (trace w).
Definition set_client (c : option TelegramClient) (l : TelegramDialogLister)
  : TelegramDialogLister :=
  mkLister (session_name l) (api_id l) (api_hash l) c.
Definition set_connected (b : bool) (c : TelegramClient) : TelegramClient :=
  mkClient (client_session c) (client_api_id c) (client_api_hash c) b.

(** *** Primitive operations *)

Definition emit (ev : event) : M World unit :=
  fun w => (Returns tt, set_trace (trace w ++ [ev]) w).

Definition log (level : log_level) (text : string) : M World unit :=
  emit (Log level text).

(** [os.getenv(var_name)]. *)
Definition getenv (var_name : string) : M World (option string) :=
  fun w => (Returns (environ w !! var_name), w).

(** The iterator moves on: [feed] is what it still holds. *)
Definition put_feed (feed : list feed_item) : M World unit :=
  fun w => (Returns tt, set_dialog_feed feed w).

(** Reading one line of the standard input. *)
Definition read_line : M World string :=
  fun w =>
    match stdin w with
    | line :: rest => (Returns line, set_stdin rest w)
    | [] => (Raises (EOFError "EOF when reading a line"), w)
    end.

(** [input(prompt)]. *)
Definition input (prompt : string) : M World string :=
  emit (Input prompt);; read_line.

(** A computation on the world, run from a method of the lister. *)
Definition in_world {A} (m : M World A) : M Machine A :=
  fun st =>
    match m (world st) with
    | (r, w') => (r, mkMachine (self st) w')
    end.

Definition get_self : M Machine TelegramDialogLister :=
  fun st => (Returns (self st), st).

Definition put_client (c : option TelegramClient) : M Machine unit :=
  fun st => (Returns tt, mkMachine (set_client c (self st)) (world st)).

(** [self.client and self.client.is_connected()], as a truth value. *)
Definition client_connected (l : TelegramDialogLister) : bool :=
  match client l with
  | Some c => connected c
  | None => false
  end.

(** The remote side answers the start call in progress: the call is
    counted, the client's connection flag follows the answer. *)
Definition remote_start (c : TelegramClient) : M Machine unit :=
  fun st =>
    let w := world st in
    let w' := set_start_calls (S (start_calls w)) w in
    match start_reply_at w (start_calls w) with
    | StartOk =>
        (Returns tt,
         mkMachine (set_client (Some (set_connected true c)) (self st)) w')
    | StartRaises e link_up =>
        (Raises e,
         mkMachine (set_client (Some (set_connected link_up c)) (self st)) w')
    end.

(** [await self.client.start(password=...)]. *)
Definition client_start (password : option string) : M Machine unit :=
  l ← get_self;
  match client l with
  | None => raise (AttributeError "'NoneType' object has no attribute 'start'")
  | Some c => in_world (emit (ClientStart password));; remote_start c
  end.

(** [await self.client.disconnect()]: Telethon closes the transport and
    does not raise. *)
Definition client_disconnect : M Machine unit :=
  l ← get_self;
  match client l with
  | None => raise (AttributeError "'NoneType' object has no attribute 'disconnect'")
  | Some c =>
      in_world (emit ClientDisconnect);;
      put_client (Some (set_connected false c))
  end.

(** ** Construction: [_get_env_var] and [__init__] *)

(** The built-in [int(str)] on ASCII text of ordinary length: surrounding
    whitespace (blank, tab, line feed, vertical tab, form feed, carriage
    return) is dropped, one sign is allowed, and the rest is decimal digits
    with single underscores between digits.  Text with other than ASCII
    characters, and the interpreter's limit on the number of digits, are not
    covered: the theorems take [int] as a parameter, and this instance only
    serves to run them on ASCII examples. *)
Module AsciiInt.

Definition is_space (a : ascii) : bool :=
  let n := nat_of_ascii a in
  ((9 <=? n) && (n <=? 13) || (n =? 32))%nat.

Definition digit_of (a : ascii) : option Z :=
  let n := nat_of_ascii a in
  if ((48 <=? n) && (n <=? 57))%nat then Some (Z.of_nat n - 48) else None.

Fixpoint lstrip (s : list ascii) : list ascii :=
  match s with
  | a :: rest => if is_space a then lstrip rest else s
  | [] => []
  end.

Definition strip (s : list ascii) : list ascii :=
  rev (lstrip (rev (lstrip s))).

(** [after_digit] tells whether the previous character was a digit: an
    underscore is accepted only there, and the text may end only there. *)
Fixpoint digits (s : list ascii) (acc : Z) (after_digit : bool) : option Z :=
  match s with
  | [] => if after_digit then Some acc else None
  | a :: rest =>
      match digit_of a with
      | Some d => digits rest (10 * acc + d) true
      | None =>
          if Ascii.eqb a "_" && after_digit
          then digits rest acc false
          else None
      end
  end.

Definition parse (v : string) : option Z :=
  match strip (list_ascii_of_string v) with
  | a :: rest =>
      if Ascii.eqb a "-" then option_map Z.opp (digits rest 0 false)
      else if Ascii.eqb a "+" then digits rest 0 false
      else digits (a :: rest) 0 false
  | [] => None
  end.

End AsciiInt.

Section Construction.

(** The built-in [int] on a [str]: [None] when it raises [ValueError]. *)
Variable int_of_str : string -> option Z.

Definition _get_env_var (var_name : string) (is_int : bool) : M World string :=
  value ← getenv var_name;
  if negb (Py.truthy_str value)
  then raise (ValueError ("Environment variable " +:+ var_name +:+ " is not set. "
                          +:+ "Please set it before running this script."))
  else
    let value := default "" value in
    if is_int
    then match int_of_str value with
         | Some n => mret (pretty n)
         | None => raise (ValueError (var_name +:+ " must be a valid integer"))
         end
    else mret value.

Definition __init__ (session_name : string) : M World TelegramDialogLister :=
  api_id ← _get_env_var "TELEGRAM_API_ID" true;
  api_hash ← _get_env_var "TELEGRAM_API_HASH" false;
  mret (mkLister session_name api_id api_hash None).

End Construction.

(** ** The methods of the lister *)

(** The [except] clauses of [connect], in the order of the source. *)
Definition connect_handler (e : exn) : M Machine unit :=
  match e with
  | SessionPasswordNeededError _ =>
      in_world (log ERROR "Two-factor authentication is enabled. Please provide password.");;
      password ← in_world (input "Enter your 2FA password: ");
      client_start (Some password)
  | FloodWaitError seconds =>
      in_world (log ERROR ("Rate limited. Please wait " +:+ pretty seconds +:+ " seconds."));;
      raise e
  | _ =>
      if is_Exception e
      then in_world (log ERROR ("Failed to connect to Telegram: " +:+ str_exn e));;
           raise e
      else raise e
  end.

Definition connect : M Machine unit :=
  try_except
    (l ← get_self;
     put_client (Some (mkClient (session_name l) (api_id l) (api_hash l) false));;
     client_start None;;
     in_world (log INFO "Successfully connected to Telegram"))
    connect_handler.

(** [connect] with the outcome of its first statement, the call of the
    [TelegramClient] constructor, made explicit: [None] when the constructor
    returns the client, [Some e] when it raises [e] (a session file that
    cannot be opened, for instance).  In that case the assignment to
    [self.client] does not take place, no start call is made, and the
    [except] clauses see [e].  [connect] above is the case in which the
    constructor returns. *)
Definition connect_with (constructor : option exn) : M Machine unit :=
  try_except
    (l ← get_self;
     match constructor with
     | None =>
         put_client (Some (mkClient (session_name l) (api_id l) (api_hash l) false))
     | Some e => raise e
     end;;
     client_start None;;
     in_world (log INFO "Successfully connected to Telegram"))
    connect_handler.

(** The [async for] loop of [list_dialogs] over what the iterator holds:
    every [__anext__] is one [ClientNextDialog]; [dialogs] is the local list
    the loop appends to. *)
Fixpoint async_for_dialogs (feed : list feed_item) (dialogs : list DialogInfo)
  : M World (list DialogInfo) :=
  match feed with
  | [] =>
      emit ClientNextDialog;;
      mret dialogs
  | Deliver d :: rest =>
      emit ClientNextDialog;;
      put_feed rest;;
      async_for_dialogs rest (dialogs ++ [dialog_info_of d])
  | Fault e :: rest =>
      emit ClientNextDialog;;
      put_feed rest;;
      raise e
  end.

Definition iter_dialogs : M World (list DialogInfo) :=
  fun w => async_for_dialogs (dialog_feed w) [] w.

(** The [except] clauses of [list_dialogs]. *)
Definition list_dialogs_handler (e : exn) : M Machine (list DialogInfo) :=
  match e with
  | FloodWaitError seconds =>
      in_world (log ERROR ("Rate limited while fetching dialogs. Wait "
                           +:+ pretty seconds +:+ " seconds."));;
      raise e
  | _ =>
      if is_Exception e
      then in_world (log ERROR ("Error while fetching dialogs: " +:+ str_exn e));;
           raise e
      else raise e
  end.

Definition list_dialogs : M Machine (list DialogInfo) :=
  l ← get_self;
  if negb (client_connected l)
  then raise (RuntimeError "Client is not connected. Call connect() first.")
  else
    try_except
      (in_world (log INFO "Fetching dialogs...");;
       dialogs ← in_world iter_dialogs;
       in_world (log INFO ("Found " +:+ pretty (length dialogs) +:+ " dialogs"));;
       mret dialogs)
      list_dialogs_handler.

Definition disconnect : M Machine unit :=
  l ← get_self;
  if client_connected l
  then client_disconnect;;
       in_world (log INFO "Disconnected from Telegram")
  else mret tt.

Definition __aenter__ : M Machine unit := connect.

Definition __aexit__ : M Machine unit := disconnect.

(** [async with lister: body], for a lister already built: [__aenter__]
    first; when it raises, the statement raises and [__aexit__] is not run;
    otherwise [body], and [__aexit__] whatever [body] did. *)
Definition async_with {A} (body : M Machine A) : M Machine A :=
  __aenter__;; then_always body __aexit__.

(** [isConnected()] of the specification: the test the source makes at the
    head of [list_dialogs] and of [disconnect]. *)
Definition isConnected (st : Machine) : bool := client_connected (self st).

(** The events of a trace that are network calls. *)
Definition network_calls (t : list event) : list event := List.filter is_network t.

(** What the caller of [list_dialogs] holds once the call is over: the list
    when one is returned, and nothing when the call raised. *)
Definition received {A} (r : outcome (list A)) : list A :=
  match r with
  | Returns rs => rs
  | Raises _ => []
  end.

(** ** The caller: [print_dialogs] of [test_loader.py]

    Standard output is the list of the texts handed to [print], one per
    call.  A string holds a Python text in UTF-8; [len], slices and the
    widths of format specifications count its characters, which are the
    bytes that are not continuation bytes. *)

Module PyStr.

(** A byte [10xxxxxx]: it continues the character begun before it. *)
Definition is_continuation (a : ascii) : bool :=
  let n := nat_of_ascii a in
  ((128 <=? n) && (n <? 192))%nat.

(** [len(s)]. *)
Fixpoint len (s : string) : nat :=
  match s with
  | EmptyString => O
  | String c rest => if is_continuation c then len rest else S (len rest)
  end.

(** [s[:n]]: the bytes of the first [n] characters. *)
Fixpoint take (n : nat) (s : string) : string :=
  match s with
  | EmptyString => EmptyString
  | String c rest =>
      if is_continuation c then String c (take n rest)
      else match n with
           | O => EmptyString
           | S n' => String c (take n' rest)
           end
  end.

(** The text begins with the first byte of a character. *)
Definition starts_character (s : string) : bool :=
  match s with
  | EmptyString => false
  | String c _ => negb (is_continuation c)
  end.

End PyStr.

(** [s * n] for a string [s]. *)
Fixpoint str_times (s : string) (n : nat) : string :=
  match n with
  | O => ""
  | S n' => s +:+ str_times s n'
  end.

(** The format specification [:<width]: the text, then spaces up to
    [width]; a longer text is left as it is. *)
Definition ljust (s : string) (width : nat) : string :=
  s +:+ str_times " " (width - PyStr.len s).

(** [str(dialog.participant_count) if dialog.participant_count else "N/A"]:
    a count of zero is as falsy as [None]. *)
Definition members_cell (participant_count : option Z) : string :=
  match participant_count with
  | Some n => if Z.eqb n 0 then "N/A" else pretty n
  | None => "N/A"
  end.

(** [dialog.name[:30] + "..." if len(dialog.name) > 30 else dialog.name]. *)
Definition name_cell (name : string) : string :=
  if (30 <? PyStr.len name)%nat
  then PyStr.take 30 name +:+ "..."
  else name.

(** The f-string of one table line, on its four cells. *)
Definition table_line (c1 c2 c3 c4 : string) : string :=
  ljust c1 25 +:+ " | " +:+ ljust c2 30 +:+ " | " +:+ ljust c3 12
    +:+ " | " +:+ ljust c4 8.

(** The body of the [for] loop of [print_dialogs]. *)
Definition dialog_row (d : DialogInfo) : string :=
  let members := members_cell (participant_count d) in
  let name := name_cell (name d) in
  table_line (entity_type d) name (pretty (entity_id d)) members.

Definition print_dialogs (dialogs : list DialogInfo) : list string :=
  match dialogs with
  | [] => ["No dialogs found."]
  | _ =>
      [String "010" (str_times "=" 80);
       table_line "Type" "Name" "ID" "Members";
       str_times "=" 80]
      ++ map dialog_row dialogs
      ++ [str_times "=" 80;
          String "010" ("Total dialogs: " +:+ pretty (length dialogs))]
  end.

(** A text that does not begin with the letter N, as every number printed
    by [pretty] (it begins with a digit or the sign). *)
Definition head_not_N (s : string) : Prop :=
  match s with
  | String c _ => c <> "N"%char
  | EmptyString => True
  end.

(** The block under [async with] in [main]: the listing, then the table.
    The value is what has been printed. *)
Definition list_and_print : M Machine (list string) :=
  dialogs ← list_dialogs;
  mret (print_dialogs dialogs).

(** ** More worlds *)

Module Scenario.

(** The remote asks for the second factor at the first start call and
    accepts the second one. *)
Definition two_factor (lines : list string) (feed : list feed_item) : World :=
  mkWorld ∅
    (fun n => match n with
              | O => StartRaises (SessionPasswordNeededError "password required") true
              | S _ => StartOk
              end)
    0 feed lines [].

(** The remote asks for the second factor and then refuses the password. *)
Definition wrong_password (lines : list string) : World :=
  mkWorld ∅
    (fun n => match n with
              | O => StartRaises (SessionPasswordNeededError "password required") true
              | S _ => StartRaises (RemoteError "The password is invalid") true
              end)
    0 [] lines [].

(** Both variables set, the identifier written with blanks around it. *)
Definition good_environment : World :=
  mkWorld (<["TELEGRAM_API_ID" := " 12345 "]>
             (<["TELEGRAM_API_HASH" := "0123456789abcdef"]> ∅))
          (fun _ => StartOk) 0 [] [] [].

(** No variable set at all. *)
Definition bare_environment : World :=
  mkWorld ∅ (fun _ => StartOk) 0 [] [] [].

(** A record whose name is longer than the name column. *)
Definition long_named : DialogInfo :=
  mkDialogInfo "A group with a very long descriptive title" 77 "Basic Group" (Some 0).

(** A record whose name has 16 characters, each of two bytes. *)
Definition accented : DialogInfo :=
  mkDialogInfo "éééééééééééééééé" 78 "Private Chat" None.

End Scenario.

(** ** Sample worlds *)

Module Sample.

Definition alice : dialog := Dialog (Some "Alice") (User 42).
Definition news : dialog := Dialog (Some "News") (Channel 7 (Some true) (Some 500)).
Definition team : dialog := Dialog (Some "Team") (Chat 9 None).
Definition blank : dialog := Dialog (Some "") (Channel 8 None (Some 12)).
Definition nameless : dialog := Dialog None (OtherEntity 3).

Definition lister : TelegramDialogLister :=
  mkLister "telegram_session" "12345" "0123456789abcdef" None.

(** The lister after a successful [connect]. *)
Definition online : TelegramDialogLister :=
  set_client
    (Some (mkClient "telegram_session" "12345" "0123456789abcdef" true)) lister.

(** A world whose remote side accepts every start call and whose dialog
    iterator holds [feed]. *)
Definition calm (feed : list feed_item) : World :=
  mkWorld ∅ (fun _ => StartOk) 0 feed [] [].

(** A remote side that answers the first start call with [first] and
    accepts every later one. *)
Definition after_first (first : start_reply) (feed : list feed_item) : World :=
  mkWorld ∅ (fun n => match n with O => first | S _ => StartOk end) 0 feed [] [].

(** Four dialogs, no fault. *)
Definition listing : Machine :=
  mkMachine online (calm (map Deliver [alice; news; team; nameless])).

(** Dialogs without a usable name. *)
Definition unnamed_listing : Machine :=
  mkMachine online (calm (map Deliver [blank; alice; nameless])).

(** Two dialogs, with one rate-limit signal after the first. *)
Definition flooded_listing : Machine :=
  mkMachine online (calm [Deliver alice; Fault (FloodWaitError 5); Deliver news]).

(** Two dialogs, with a remote failure after the first. *)
Definition broken_listing : Machine :=
  mkMachine online
    (calm [Deliver alice; Fault (RemoteError "connection reset"); Deliver news]).

(** One rate-limit signal at the first start call, raised before the
    transport is open; the next start call would succeed. *)
Definition flooded_start : Machine :=
  mkMachine lister (after_first (StartRaises (FloodWaitError 5) false) []).

(** The rate-limit signal comes once the transport is open, while the
    client authenticates. *)
Definition flooded_login : Machine :=
  mkMachine lister
    (after_first (StartRaises (FloodWaitError 30) true) [Deliver alice]).

(** The scenario of the specification: an identifier and an empty secret. *)
Definition empty_secret : World :=
  mkWorld (<["TELEGRAM_API_ID" := "12345"]> (<["TELEGRAM_API_HASH" := ""]> ∅))
          (fun _ => StartOk) 0 [] [] [].

End Sample.

(** * Properties *)

(** ** Reasoning tools *)

(** Unfolding of the monad and of the primitive operations. *)
Ltac run :=
  unfold list_dialogs, disconnect, connect, async_with, __aenter__, __aexit__,
    then_always, try_except, client_start, client_disconnect, remote_start,
    iter_dialogs, input, read_line, log, emit, put_feed, put_client, get_self,
    in_world, raise, isConnected, mbind, mret, M_bind, M_ret in *;
  cbn [self world fst snd trace environ start_reply_at start_calls dialog_feed
       stdin client set_client set_trace set_start_calls set_dialog_feed
       set_stdin set_connected connected client_connected negb] in *.

(** The loop on a feed that only delivers: every dialog becomes one record,
    appended in order, and one more [__anext__] finds the end. *)
Lemma async_for_all_delivered (ds : list dialog) :
  forall (acc : list DialogInfo) (w : World),
    async_for_dialogs (map Deliver ds) acc w =
    (Returns (acc ++ map dialog_info_of ds),
     mkWorld (environ w) (start_reply_at w) (start_calls w)
             (match ds with [] => dialog_feed w | _ => [] end) (stdin w)
             (trace w ++ repeat ClientNextDialog (S (length ds)))).
Proof.
  induction ds as [|d ds IH]; intros acc w.
  - destruct w; cbn. unfold mbind, M_bind, emit, mret, M_ret; cbn.
    now rewrite app_nil_r.
  - cbn [map async_for_dialogs]. unfold mbind, M_bind, emit, put_feed.
    rewrite IH. cbn [environ start_reply_at start_calls stdin trace
                     dialog_feed set_trace set_dialog_feed length].
    rewrite <- !app_assoc. cbn [app].
    f_equal. f_equal. now destruct ds.
Qed.

(** The loop on a feed whose first fault comes after the dialogs [ds]: the
    exception leaves the loop, the list built so far does not. *)
Lemma async_for_fault (ds : list dialog) (e : exn) (rest : list feed_item) :
  forall (acc : list DialogInfo) (w : World),
    async_for_dialogs (map Deliver ds ++ Fault e :: rest) acc w =
    (Raises e,
     mkWorld (environ w) (start_reply_at w) (start_calls w) rest (stdin w)
             (trace w ++ repeat ClientNextDialog (S (length ds)))).
Proof.
  induction ds as [|d ds IH]; intros acc w.
  - cbn. unfold mbind, M_bind, emit, put_feed, raise. reflexivity.
  - cbn [map app async_for_dialogs]. unfold mbind, M_bind, emit, put_feed.
    rewrite IH. cbn [environ start_reply_at start_calls stdin trace
                     dialog_feed set_trace set_dialog_feed length].
    rewrite <- !app_assoc. reflexivity.
Qed.

(** Every feed either only delivers or has a first fault. *)
Lemma feed_shape (feed : list feed_item) :
  (exists ds, feed = map Deliver ds) \/
  (exists ds e rest, feed = map Deliver ds ++ Fault e :: rest).
Proof.
  induction feed as [|[d|e] feed IH].
  - left. now exists [].
  - destruct IH as [[ds ->] | (ds & e & rest & ->)].
    + left. now exists (d :: ds).
    + right. now exists (d :: ds), e, rest.
  - right. now exists [], e, feed.
Qed.

Lemma or_str_nonempty (a : option string) (b : string) :
  b <> "" -> Py.or_str a b <> "".
Proof.
  intros Hb. destruct a as [s|]; cbn; [|exact Hb].
  destruct (String.eqb_spec s ""); cbn; congruence.
Qed.

(** [list_dialogs] on a connected lister whose feed only delivers. *)
Lemma list_dialogs_all_delivered (st : Machine) (ds : list dialog) :
  isConnected st = true ->
  dialog_feed (world st) = map Deliver ds ->
  list_dialogs st =
  (Returns (map dialog_info_of ds),
   mkMachine (self st)
     (mkWorld (environ (world st)) (start_reply_at (world st))
        (start_calls (world st)) [] (stdin (world st))
        (trace (world st) ++ [Log INFO "Fetching dialogs..."]
           ++ repeat ClientNextDialog (S (length ds))
           ++ [Log INFO ("Found " +:+ pretty (length (map dialog_info_of ds))
                         +:+ " dialogs")]))).
Proof.
  intros Hc Hfeed. run. rewrite Hc. cbn [negb].
  rewrite Hfeed, async_for_all_delivered. run.
  rewrite Hfeed. rewrite <- !app_assoc. cbn [app].
  do 4 f_equal. now destruct ds.
Qed.

(** [list_dialogs] on a connected lister whose feed faults after [ds]. *)
Lemma list_dialogs_fault (st : Machine) (ds : list dialog) (e : exn)
      (rest : list feed_item) :
  isConnected st = true ->
  dialog_feed (world st) = map Deliver ds ++ Fault e :: rest ->
  list_dialogs st =
  list_dialogs_handler e
    (mkMachine (self st)
       (mkWorld (environ (world st)) (start_reply_at (world st))
          (start_calls (world st)) rest (stdin (world st))
          (trace (world st) ++ [Log INFO "Fetching dialogs..."]
             ++ repeat ClientNextDialog (S (length ds))))).
Proof.
  intros Hc Hfeed. run. rewrite Hc. cbn [negb].
  rewrite Hfeed, async_for_fault. run.
  rewrite <- !app_assoc. reflexivity.
Qed.

Lemma list_dialogs_handler_raises (e : exn) (st : Machine) :
  fst (list_dialogs_handler e st) = Raises e.
Proof. destruct e; reflexivity. Qed.

Lemma list_dialogs_offline (st : Machine) :
  isConnected st = false ->
  list_dialogs st =
  (Raises (RuntimeError "Client is not connected. Call connect() first."), st).
Proof. intros Hc. run. now rewrite Hc. Qed.

Lemma dialog_info_of_fields (d : dialog) :
  dialog_info_of d =
  mkDialogInfo (Py.or_str (dialog_name d) "Unnamed")
               (entity_id_of (dialog_entity d))
               (fst (_get_entity_type (dialog_entity d)))
               (snd (_get_entity_type (dialog_entity d))).
Proof.
  unfold dialog_info_of. now destruct (_get_entity_type (dialog_entity d)).
Qed.

(** ** The classifier *)

(** C1. [_get_entity_type] is a total function without a failing branch; its
    label is always one of the five (pairwise distinct) category labels, and
    it follows the rules in order: a [User] is a "Private Chat" without
    count, a [Chat] a "Basic Group" with its reported count, a [Channel]
    whose broadcast flag is true a "Channel (broadcast)" and any other
    [Channel] a "Supergroup", both with the reported count, and every other
    entity is "Unknown" without count. *)
Theorem C1_get_entity_type_total_five_labels :
  NoDup category_labels /\
  (forall e : entity, fst (_get_entity_type e) ∈ category_labels) /\
  (forall id, _get_entity_type (User id) = ("Private Chat", None)) /\
  (forall id count, _get_entity_type (Chat id count) = ("Basic Group", count)) /\
  (forall id count,
      _get_entity_type (Channel id (Some true) count) = ("Channel (broadcast)", count)) /\
  (forall id count,
      _get_entity_type (Channel id (Some false) count) = ("Supergroup", count) /\
      _get_entity_type (Channel id None count) = ("Supergroup", count)) /\
  (forall id, _get_entity_type (OtherEntity id) = ("Unknown", None)).
Proof.
  split; [|split].
  - apply (bool_decide_unpack _). vm_compute. reflexivity.
  - intros [id|id count|id [[|]|] count|id]; cbn;
      apply (bool_decide_unpack _); vm_compute; reflexivity.
  - repeat split.
Qed.

(** ** Enumeration *)

(** C2. On a connected lister whose remote listing holds the [N] dialogs [ds]
    and raises nothing, [list_dialogs] returns exactly [N] records, the i-th
    built from the i-th dialog: its name is the remote name, or "Unnamed"
    when the remote supplies none (no name, or an empty one), its identifier
    is the entity's, and its category and participant count are those of
    [_get_entity_type] on that entity. *)
Theorem C2_list_dialogs_yields_all_in_order (st : Machine) (ds : list dialog) :
  isConnected st = true ->
  dialog_feed (world st) = map Deliver ds ->
  exists rs : list DialogInfo,
    fst (list_dialogs st) = Returns rs /\
    length rs = length ds /\
    forall (i : nat) (d : dialog),
      ds !! i = Some d ->
      exists r : DialogInfo,
        rs !! i = Some r /\
        (dialog_name d = None \/ dialog_name d = Some "" -> name r = "Unnamed") /\
        (forall s, dialog_name d = Some s -> s <> "" -> name r = s) /\
        entity_id r = entity_id_of (dialog_entity d) /\
        (entity_type r, participant_count r) = _get_entity_type (dialog_entity d).
Proof.
  intros Hc Hfeed. exists (map dialog_info_of ds).
  rewrite (list_dialogs_all_delivered st ds Hc Hfeed). cbn [fst].
  split; [reflexivity|]. split; [apply length_map|].
  intros i d Hi. exists (dialog_info_of d). split.
  - change (map dialog_info_of ds) with (dialog_info_of <$> ds).
    now rewrite list_lookup_fmap, Hi.
  - rewrite dialog_info_of_fields. cbn [name entity_id entity_type participant_count].
    repeat split.
    + now intros [-> | ->].
    + intros s -> Hs. cbn. destruct (String.eqb_spec s ""); [contradiction|reflexivity].
    + now destruct (_get_entity_type (dialog_entity d)).
Qed.

Lemma C2_list_dialogs_sample :
  isConnected Sample.listing = true /\
  exists rs : list DialogInfo,
    fst (list_dialogs Sample.listing) = Returns rs /\
    length rs = 4%nat /\
    forall (i : nat) (d : dialog),
      [Sample.alice; Sample.news; Sample.team; Sample.nameless] !! i = Some d ->
      exists r : DialogInfo,
        rs !! i = Some r /\
        (dialog_name d = None \/ dialog_name d = Some "" -> name r = "Unnamed") /\
        (forall s, dialog_name d = Some s -> s <> "" -> name r = s) /\
        entity_id r = entity_id_of (dialog_entity d) /\
        (entity_type r, participant_count r) = _get_entity_type (dialog_entity d).
Proof.
  split; [reflexivity|].
  exact (C2_list_dialogs_yields_all_in_order Sample.listing
           [Sample.alice; Sample.news; Sample.team; Sample.nameless]
           eq_refl eq_refl).
Defined.

(** C10. Every record [list_dialogs] returns has a non-empty name: "Unnamed"
    stands in both when the dialog has no name and when its name is the
    empty string. *)
Theorem C10_returned_names_are_non_empty (st : Machine) (rs : list DialogInfo) :
  fst (list_dialogs st) = Returns rs ->
  Forall (fun r => name r <> "") rs /\
  (forall e, name (dialog_info_of (Dialog None e)) = "Unnamed") /\
  (forall e, name (dialog_info_of (Dialog (Some "") e)) = "Unnamed").
Proof.
  intros Hrs. split.
  - destruct (isConnected st) eqn:Hc.
    + destruct (feed_shape (dialog_feed (world st)))
        as [[ds Hfeed] | (ds & e & rest & Hfeed)].
      * rewrite (list_dialogs_all_delivered st ds Hc Hfeed) in Hrs.
        cbn [fst] in Hrs. injection Hrs as <-.
        apply Forall_forall. intros r Hr.
        change (map dialog_info_of ds) with (dialog_info_of <$> ds) in Hr.
        apply list_elem_of_fmap in Hr as (d & -> & _).
        rewrite dialog_info_of_fields. cbn [name].
        now apply or_str_nonempty.
      * rewrite (list_dialogs_fault st ds e rest Hc Hfeed) in Hrs.
        rewrite list_dialogs_handler_raises in Hrs. discriminate.
    + rewrite (list_dialogs_offline st Hc) in Hrs. discriminate.
  - split; intros e; now rewrite dialog_info_of_fields.
Qed.

Lemma C10_unnamed_sample :
  fst (list_dialogs Sample.unnamed_listing) =
  Returns (map dialog_info_of [Sample.blank; Sample.alice; Sample.nameless]) /\
  Forall (fun r => name r <> "")
    (map dialog_info_of [Sample.blank; Sample.alice; Sample.nameless]) /\
  (forall e, name (dialog_info_of (Dialog None e)) = "Unnamed") /\
  (forall e, name (dialog_info_of (Dialog (Some "") e)) = "Unnamed").
Proof.
  split; [reflexivity|].
  exact (C10_returned_names_are_non_empty Sample.unnamed_listing
           (map dialog_info_of [Sample.blank; Sample.alice; Sample.nameless])
           eq_refl).
Defined.

(** C7. On a lister that is not connected (no client yet, or a client whose
    connection is down) [list_dialogs] raises the "Client is not connected"
    error at once and leaves the lister and the world as they were: nothing
    is pulled from the remote and no start call is made. *)
Theorem C7_list_dialogs_requires_connection (st : Machine) :
  isConnected st = false ->
  list_dialogs st =
  (Raises (RuntimeError "Client is not connected. Call connect() first."), st).
Proof. apply list_dialogs_offline. Qed.

Lemma C7_offline_sample :
  isConnected Sample.flooded_start = false /\
  list_dialogs Sample.flooded_start =
  (Raises (RuntimeError "Client is not connected. Call connect() first."),
   Sample.flooded_start).
Proof.
  split; [reflexivity|].
  exact (C7_list_dialogs_requires_connection Sample.flooded_start eq_refl).
Defined.

(** C4 as stated does not hold.  The listing holds two dialogs and one
    rate-limit signal between them; the remote would hand out the second
    dialog afterwards.  [list_dialogs] raises the [FloodWaitError] instead of
    returning the two records, and the second dialog is still with the
    remote. *)
Lemma C4_flood_mid_listing_is_not_resumed :
  fst (list_dialogs Sample.flooded_listing) = Raises (FloodWaitError 5) /\
  fst (list_dialogs Sample.flooded_listing)
    <> Returns (map dialog_info_of [Sample.alice; Sample.news]) /\
  dialog_feed (world (snd (list_dialogs Sample.flooded_listing)))
    = [Deliver Sample.news].
Proof. repeat split. discriminate. Qed.

(** C4, amended.  When the remote signals a rate limit after the dialogs [ds]
    of a listing, [list_dialogs] on a connected lister does not wait, retry
    or resume: it logs the reported wait and raises the remote's
    [FloodWaitError] again.  No record is returned, nothing more is pulled
    (what the remote still holds stays there), and the lister is unchanged. *)
Theorem C4_rate_limit_aborts_listing (st : Machine) (ds : list dialog)
        (seconds : Z) (rest : list feed_item) :
  isConnected st = true ->
  dialog_feed (world st) = map Deliver ds ++ Fault (FloodWaitError seconds) :: rest ->
  fst (list_dialogs st) = Raises (FloodWaitError seconds) /\
  received (fst (list_dialogs st)) = [] /\
  self (snd (list_dialogs st)) = self st /\
  dialog_feed (world (snd (list_dialogs st))) = rest /\
  trace (world (snd (list_dialogs st))) =
    trace (world st) ++ [Log INFO "Fetching dialogs..."]
      ++ repeat ClientNextDialog (S (length ds))
      ++ [Log ERROR ("Rate limited while fetching dialogs. Wait "
                     +:+ pretty seconds +:+ " seconds.")].
Proof.
  intros Hc Hfeed.
  rewrite (list_dialogs_fault st ds _ rest Hc Hfeed).
  unfold list_dialogs_handler. run.
  rewrite <- !app_assoc. repeat split.
Qed.

Lemma C4_rate_limit_sample :
  isConnected Sample.flooded_listing = true /\
  fst (list_dialogs Sample.flooded_listing) = Raises (FloodWaitError 5) /\
  received (fst (list_dialogs Sample.flooded_listing)) = [] /\
  self (snd (list_dialogs Sample.flooded_listing)) = Sample.online /\
  dialog_feed (world (snd (list_dialogs Sample.flooded_listing)))
    = [Deliver Sample.news] /\
  trace (world (snd (list_dialogs Sample.flooded_listing))) =
    [] ++ [Log INFO "Fetching dialogs..."]
      ++ repeat ClientNextDialog 2
      ++ [Log ERROR ("Rate limited while fetching dialogs. Wait "
                     +:+ pretty 5 +:+ " seconds.")].
Proof.
  split; [reflexivity|].
  exact (C4_rate_limit_aborts_listing Sample.flooded_listing [Sample.alice] 5
           [Deliver Sample.news] eq_refl eq_refl).
Defined.

(** C5 as stated does not hold.  The remote fails after the first of two
    dialogs.  What [list_dialogs] raises is the remote's exception itself,
    not an error wrapping it, and the caller receives no record although one
    had been built; the lister keeps none either. *)
Lemma C5_remote_failure_drops_partial_results :
  fst (list_dialogs Sample.broken_listing) = Raises (RemoteError "connection reset") /\
  received (fst (list_dialogs Sample.broken_listing)) <> [dialog_info_of Sample.alice] /\
  received (fst (list_dialogs Sample.broken_listing)) = [] /\
  self (snd (list_dialogs Sample.broken_listing)) = Sample.online.
Proof. repeat split. discriminate. Qed.

(** C5, amended.  When the remote raises, after the dialogs [ds], an
    exception [e] that is not a rate-limit signal, [list_dialogs] on a
    connected lister aborts: it logs the failure (for every subclass of
    [Exception]) and raises [e] itself again, unwrapped.  The call returns no
    list, so the records built before the failure do not reach the caller,
    and nothing more is pulled. *)
Theorem C5_remote_failure_aborts_listing (st : Machine) (ds : list dialog)
        (e : exn) (rest : list feed_item) :
  isConnected st = true ->
  dialog_feed (world st) = map Deliver ds ++ Fault e :: rest ->
  (forall seconds, e <> FloodWaitError seconds) ->
  fst (list_dialogs st) = Raises e /\
  received (fst (list_dialogs st)) = [] /\
  self (snd (list_dialogs st)) = self st /\
  dialog_feed (world (snd (list_dialogs st))) = rest /\
  trace (world (snd (list_dialogs st))) =
    trace (world st) ++ [Log INFO "Fetching dialogs..."]
      ++ repeat ClientNextDialog (S (length ds))
      ++ (if is_Exception e
          then [Log ERROR ("Error while fetching dialogs: " +:+ str_exn e)]
          else []).
Proof.
  intros Hc Hfeed Hkind.
  rewrite (list_dialogs_fault st ds e rest Hc Hfeed).
  destruct e as [seconds| | | | | | |];
    [exfalso; exact (Hkind seconds eq_refl) | ..];
    unfold list_dialogs_handler; cbn [is_Exception]; run;
    rewrite <- ?app_assoc, ?app_nil_r; repeat split.
Qed.

Lemma C5_remote_failure_sample :
  isConnected Sample.broken_listing = true /\
  fst (list_dialogs Sample.broken_listing) = Raises (RemoteError "connection reset") /\
  received (fst (list_dialogs Sample.broken_listing)) = [] /\
  self (snd (list_dialogs Sample.broken_listing)) = Sample.online /\
  dialog_feed (world (snd (list_dialogs Sample.broken_listing)))
    = [Deliver Sample.news] /\
  trace (world (snd (list_dialogs Sample.broken_listing))) =
    [] ++ [Log INFO "Fetching dialogs..."]
      ++ repeat ClientNextDialog 2
      ++ [Log ERROR ("Error while fetching dialogs: " +:+ "connection reset")].
Proof.
  split; [reflexivity|].
  apply (C5_remote_failure_aborts_listing Sample.broken_listing [Sample.alice]
           (RemoteError "connection reset") [Deliver Sample.news] eq_refl eq_refl).
  intros seconds. discriminate.
Defined.

(** ** Connection *)

(** C3 as stated does not hold.  The remote answers the first start call with
    a rate-limit signal and would accept the second.  [connect] raises the
    [FloodWaitError] after that single start call instead of trying again. *)
Lemma C3_connect_does_not_retry :
  start_reply_at (world Sample.flooded_start) 1 = StartOk /\
  fst (connect Sample.flooded_start) = Raises (FloodWaitError 5) /\
  fst (connect Sample.flooded_start) <> Returns tt /\
  start_calls (world (snd (connect Sample.flooded_start))) = 1%nat.
Proof. repeat split. discriminate. Qed.

(** C3, amended.  When the remote answers a start call of [connect] with a
    rate-limit signal (the first call, or the second one made with the
    password after a two-factor request), [connect] does not wait or retry:
    it raises the remote's [FloodWaitError], which carries the reported wait,
    and the rate-limited start call is the last one it makes.  When the
    signal answers the first start call, all [connect] does after that call
    is to log the reported wait; when it answers the password call, [connect]
    does nothing after it. *)
Theorem C3_connect_raises_first_rate_limit (st : Machine) (n : nat)
        (seconds : Z) (link_up : bool) :
  start_reply_at (world st) n = StartRaises (FloodWaitError seconds) link_up ->
  (n = start_calls (world st) \/
   (n = S (start_calls (world st)) /\
    stdin (world st) <> [] /\
    exists text up,
      start_reply_at (world st) (start_calls (world st))
      = StartRaises (SessionPasswordNeededError text) up)) ->
  fst (connect st) = Raises (FloodWaitError seconds) /\
  start_calls (world (snd (connect st))) = S n /\
  trace (world (snd (connect st))) =
    trace (world st)
      ++ (if Nat.eqb n (start_calls (world st))
          then [ClientStart None;
                Log ERROR ("Rate limited. Please wait " +:+ pretty seconds
                           +:+ " seconds.")]
          else [ClientStart None;
                Log ERROR "Two-factor authentication is enabled. Please provide password.";
                Input "Enter your 2FA password: ";
                ClientStart (Some (hd "" (stdin (world st))))]).
Proof.
  intros Hflood [-> | (-> & Hin & text & up & H2fa)].
  - rewrite Nat.eqb_refl. run. rewrite Hflood. unfold connect_handler. run.
    rewrite <- !app_assoc. repeat split.
  - replace (Nat.eqb (S (start_calls (world st))) (start_calls (world st)))
      with false by (symmetry; apply Nat.eqb_neq; lia).
    run. rewrite H2fa. unfold connect_handler. run.
    destruct (stdin (world st)) as [|line more]; [contradiction|].
    run. rewrite Hflood. rewrite <- !app_assoc. repeat split.
Qed.

Lemma C3_rate_limited_start_sample :
  start_reply_at (world Sample.flooded_start) 0
    = StartRaises (FloodWaitError 5) false /\
  fst (connect Sample.flooded_start) = Raises (FloodWaitError 5) /\
  start_calls (world (snd (connect Sample.flooded_start))) = 1%nat /\
  trace (world (snd (connect Sample.flooded_start))) =
    [] ++ [ClientStart None;
           Log ERROR ("Rate limited. Please wait " +:+ pretty 5 +:+ " seconds.")].
Proof.
  split; [reflexivity|].
  apply (C3_connect_raises_first_rate_limit Sample.flooded_start 0 5 false eq_refl).
  left. reflexivity.
Defined.

(** [disconnect] always returns, leaves the lister not connected, and does
    nothing at all on a lister that is not connected. *)
Lemma disconnect_spec (st : Machine) :
  fst (disconnect st) = Returns tt /\
  isConnected (snd (disconnect st)) = false /\
  (isConnected st = false -> disconnect st = (Returns tt, st)).
Proof.
  destruct st as [[sn id hash [[cs ci ch [|]]|]] w]; run; repeat split;
    intros; discriminate.
Qed.

(** C9. [disconnect] returns without raising on every lister state; after it
    the lister is not connected; and calling it again returns and changes
    nothing, neither in the lister nor in the world. *)
Theorem C9_disconnect_idempotent_and_safe (st : Machine) :
  fst (disconnect st) = Returns tt /\
  isConnected (snd (disconnect st)) = false /\
  disconnect (snd (disconnect st)) = (Returns tt, snd (disconnect st)).
Proof.
  destruct (disconnect_spec st) as (Hret & Hoff & _).
  repeat split; try assumption.
  now apply disconnect_spec.
Qed.

(** ** Scoped use *)

(** Once [connect] has returned, [async with] runs [__aexit__] whatever the
    body does, and the lister ends not connected. *)
Lemma async_with_releases_after_body {A} (body : M Machine A) (st : Machine) :
  fst (connect st) = Returns tt ->
  isConnected (snd (async_with body st)) = false.
Proof.
  intros Hok. unfold async_with, __aenter__, __aexit__, then_always, mbind, M_bind.
  destruct (connect st) as [[[]|e] st1]; [|discriminate].
  destruct (body st1) as [r st2].
  destruct (disconnect_spec st2) as (Hret & Hoff & _).
  destruct (disconnect st2) as [[[]|e] st3]; [exact Hoff | discriminate].
Qed.

(** C6, at the input where it fails.  The remote opens the transport and then
    answers the start call with a rate-limit signal.  [async with] raises out
    of [__aenter__]; [__aexit__] is not run: the only network call is the
    start call, no disconnect is made, and the client is left connected. *)
Theorem C6_failed_connect_leaves_client_connected :
  fst (async_with list_dialogs Sample.flooded_login) = Raises (FloodWaitError 30) /\
  network_calls (trace (world (snd (async_with list_dialogs Sample.flooded_login))))
    = [ClientStart None] /\
  isConnected (snd (async_with list_dialogs Sample.flooded_login)) = true.
Proof. repeat split. Qed.

(** ** Construction *)

(** [_get_env_var], case by case on what the environment holds. *)
Lemma _get_env_var_cases (int_of_str : string -> option Z) (var_name : string)
      (is_int : bool) (w : World) :
  _get_env_var int_of_str var_name is_int w =
  match environ w !! var_name with
  | None =>
      (Raises (ValueError ("Environment variable " +:+ var_name +:+ " is not set. "
                           +:+ "Please set it before running this script.")), w)
  | Some v =>
      if String.eqb v ""
      then (Raises (ValueError ("Environment variable " +:+ var_name
                                +:+ " is not set. "
                                +:+ "Please set it before running this script.")), w)
      else if is_int
           then match int_of_str v with
                | Some n => (Returns (pretty n), w)
                | None => (Raises (ValueError (var_name +:+ " must be a valid integer")), w)
                end
           else (Returns v, w)
  end.
Proof.
  unfold _get_env_var, getenv, raise, mbind, mret, M_bind, M_ret.
  destruct (environ w !! var_name) as [v|]; cbn [Py.truthy_str negb]; [|reflexivity].
  destruct (String.eqb v ""); cbn [negb]; [reflexivity|].
  destruct is_int; [|reflexivity].
  unfold default, from_option, id. now destruct (int_of_str v).
Qed.

(** C8. When [TELEGRAM_API_ID] or [TELEGRAM_API_HASH] is unset or empty, or
    [int] rejects the value of [TELEGRAM_API_ID], building the lister raises
    a [ValueError] and leaves the world untouched: no client exists yet and
    no network call or start call has been made. *)
Theorem C8_bad_credentials_raise_before_network
        (int_of_str : string -> option Z) (session : string) (w : World) :
  (environ w !! "TELEGRAM_API_ID" = None \/
   environ w !! "TELEGRAM_API_ID" = Some "" \/
   (exists v, environ w !! "TELEGRAM_API_ID" = Some v /\ int_of_str v = None) \/
   environ w !! "TELEGRAM_API_HASH" = None \/
   environ w !! "TELEGRAM_API_HASH" = Some "") ->
  exists text : string,
    __init__ int_of_str session w = (Raises (ValueError text), w).
Proof.
  intros Hbad. unfold __init__, mbind, M_bind.
  rewrite _get_env_var_cases.
  destruct (environ w !! "TELEGRAM_API_ID") as [v|] eqn:Hid; [|eauto].
  destruct (String.eqb_spec v "") as [->|Hv]; [eauto|].
  destruct (int_of_str v) as [n|] eqn:Hint; [|eauto].
  rewrite _get_env_var_cases.
  destruct (environ w !! "TELEGRAM_API_HASH") as [h|] eqn:Hhash; [|eauto].
  destruct (String.eqb_spec h "") as [->|Hh]; [eauto|].
  exfalso.
  destruct Hbad as [H | [H | [(v' & H & Hnone) | [H | H]]]]; congruence.
Qed.

Lemma C8_empty_secret_sample :
  environ Sample.empty_secret !! "TELEGRAM_API_HASH" = Some "" /\
  exists text : string,
    __init__ AsciiInt.parse "telegram_session" Sample.empty_secret
    = (Raises (ValueError text), Sample.empty_secret).
Proof.
  split; [reflexivity|].
  apply C8_bad_credentials_raise_before_network.
  right. right. right. right. reflexivity.
Defined.

(** * Further properties of the lister *)

(** ** Construction, the successful path *)

(** With both variables set and non-empty and an identifier [int] accepts,
    [__init__] returns a lister that holds the identifier printed back from
    its integer value (blanks, sign and underscores normalised away), the
    secret exactly as it is in the environment, and no client; the world is
    untouched. *)
Theorem init_stores_normalised_identifier
        (int_of_str : string -> option Z) (session : string) (w : World)
        (v h : string) (n : Z) :
  environ w !! "TELEGRAM_API_ID" = Some v -> v <> "" ->
  int_of_str v = Some n ->
  environ w !! "TELEGRAM_API_HASH" = Some h -> h <> "" ->
  __init__ int_of_str session w = (Returns (mkLister session (pretty n) h None), w).
Proof.
  intros Hid Hv Hint Hhash Hh. unfold __init__, mbind, M_bind.
  rewrite _get_env_var_cases, Hid.
  destruct (String.eqb_spec v ""); [contradiction|]. rewrite Hint.
  rewrite _get_env_var_cases, Hhash.
  destruct (String.eqb_spec h ""); [contradiction|]. reflexivity.
Qed.

Lemma init_good_environment_sample :
  __init__ AsciiInt.parse "telegram_session" Scenario.good_environment
  = (Returns (mkLister "telegram_session" "12345" "0123456789abcdef" None),
     Scenario.good_environment).
Proof.
  apply (init_stores_normalised_identifier AsciiInt.parse "telegram_session"
           Scenario.good_environment " 12345 " "0123456789abcdef" 12345);
    (reflexivity || discriminate).
Defined.

(** The identifier is looked at first: when [TELEGRAM_API_ID] is unset or
    empty, the error names that variable, whatever [TELEGRAM_API_HASH]
    holds. *)
Theorem init_reports_identifier_first
        (int_of_str : string -> option Z) (session : string) (w : World) :
  Py.truthy_str (environ w !! "TELEGRAM_API_ID") = false ->
  __init__ int_of_str session w =
  (Raises (ValueError "Environment variable TELEGRAM_API_ID is not set. Please set it before running this script."),
   w).
Proof.
  intros Hid. unfold __init__, mbind, M_bind. rewrite _get_env_var_cases.
  destruct (environ w !! "TELEGRAM_API_ID") as [v|]; [|reflexivity].
  cbn in Hid. destruct (String.eqb v ""); [reflexivity|discriminate].
Qed.

Lemma init_bare_environment_sample :
  Py.truthy_str (environ Scenario.bare_environment !! "TELEGRAM_API_ID") = false /\
  __init__ AsciiInt.parse "telegram_session" Scenario.bare_environment =
  (Raises (ValueError "Environment variable TELEGRAM_API_ID is not set. Please set it before running this script."),
   Scenario.bare_environment).
Proof.
  split; [reflexivity|].
  exact (init_reports_identifier_first AsciiInt.parse "telegram_session"
           Scenario.bare_environment eq_refl).
Defined.

(** ** [connect], path by path *)

(** When the remote accepts the first start call, [connect] returns with the
    lister connected, after that single call (made without password) and the
    success line in the log; the client it installs carries the lister's
    session name and credentials. *)
Theorem connect_succeeds_on_first_start (st : Machine) :
  start_reply_at (world st) (start_calls (world st)) = StartOk ->
  fst (connect st) = Returns tt /\
  isConnected (snd (connect st)) = true /\
  client (self (snd (connect st))) =
    Some (mkClient (session_name (self st)) (api_id (self st))
                   (api_hash (self st)) true) /\
  start_calls (world (snd (connect st))) = S (start_calls (world st)) /\
  trace (world (snd (connect st))) =
    trace (world st)
      ++ [ClientStart None; Log INFO "Successfully connected to Telegram"].
Proof.
  intros Hok. run. rewrite Hok. run. rewrite <- !app_assoc. repeat split.
Qed.

Lemma connect_succeeds_sample :
  fst (connect (mkMachine Sample.lister (Sample.calm []))) = Returns tt /\
  isConnected (snd (connect (mkMachine Sample.lister (Sample.calm [])))) = true.
Proof.
  pose proof (connect_succeeds_on_first_start
                (mkMachine Sample.lister (Sample.calm [])) eq_refl)
    as (Hret & Hup & _).
  split; assumption.
Defined.

(** When the remote asks for the second factor, [connect] logs it, prompts
    once, reads one line and makes a second start call with that line as the
    password; when the remote accepts it, [connect] returns with the lister
    connected.  The success line is not logged on this path. *)
Theorem connect_two_factor_succeeds (st : Machine) (text line : string)
        (up : bool) (more : list string) :
  start_reply_at (world st) (start_calls (world st))
    = StartRaises (SessionPasswordNeededError text) up ->
  stdin (world st) = line :: more ->
  start_reply_at (world st) (S (start_calls (world st))) = StartOk ->
  fst (connect st) = Returns tt /\
  isConnected (snd (connect st)) = true /\
  stdin (world (snd (connect st))) = more /\
  start_calls (world (snd (connect st))) = S (S (start_calls (world st))) /\
  trace (world (snd (connect st))) =
    trace (world st)
      ++ [ClientStart None;
          Log ERROR "Two-factor authentication is enabled. Please provide password.";
          Input "Enter your 2FA password: ";
          ClientStart (Some line)].
Proof.
  intros H2fa Hin Hok. run. rewrite H2fa. unfold connect_handler. run.
  rewrite Hin. run. rewrite Hok. rewrite <- !app_assoc. repeat split.
Qed.

Lemma connect_two_factor_sample :
  fst (connect (mkMachine Sample.lister (Scenario.two_factor ["hunter2"] [])))
    = Returns tt /\
  isConnected
    (snd (connect (mkMachine Sample.lister (Scenario.two_factor ["hunter2"] []))))
    = true.
Proof.
  pose proof (connect_two_factor_succeeds
                (mkMachine Sample.lister (Scenario.two_factor ["hunter2"] []))
                "password required" "hunter2" true [] eq_refl eq_refl eq_refl)
    as (Hret & Hup & _).
  split; assumption.
Defined.

(** An exception of the second start call is raised out of the handler as it
    is: none of the [except] clauses of [connect] sees it, so nothing is
    logged after the call, not even for a rate limit or a refused password,
    and the connection is left as that call left it. *)
Theorem connect_two_factor_failure_is_not_logged (st : Machine)
        (text line : string) (up up' : bool) (more : list string) (e : exn) :
  start_reply_at (world st) (start_calls (world st))
    = StartRaises (SessionPasswordNeededError text) up ->
  stdin (world st) = line :: more ->
  start_reply_at (world st) (S (start_calls (world st))) = StartRaises e up' ->
  fst (connect st) = Raises e /\
  isConnected (snd (connect st)) = up' /\
  trace (world (snd (connect st))) =
    trace (world st)
      ++ [ClientStart None;
          Log ERROR "Two-factor authentication is enabled. Please provide password.";
          Input "Enter your 2FA password: ";
          ClientStart (Some line)].
Proof.
  intros H2fa Hin Hbad. run. rewrite H2fa. unfold connect_handler. run.
  rewrite Hin. run. rewrite Hbad. rewrite <- !app_assoc. repeat split.
Qed.

Lemma connect_wrong_password_sample :
  fst (connect (mkMachine Sample.lister (Scenario.wrong_password ["hunter2"])))
    = Raises (RemoteError "The password is invalid") /\
  isConnected
    (snd (connect (mkMachine Sample.lister (Scenario.wrong_password ["hunter2"]))))
    = true.
Proof.
  pose proof (connect_two_factor_failure_is_not_logged
                (mkMachine Sample.lister (Scenario.wrong_password ["hunter2"]))
                "password required" "hunter2" true true []
                (RemoteError "The password is invalid") eq_refl eq_refl eq_refl)
    as (Hret & Hup & _).
  split; assumption.
Defined.

(** When the second factor is asked for and the standard input is at its
    end, [connect] raises the [EOFError] of [input] after the prompt, without
    a second start call. *)
Theorem connect_two_factor_without_input (st : Machine) (text : string)
        (up : bool) :
  start_reply_at (world st) (start_calls (world st))
    = StartRaises (SessionPasswordNeededError text) up ->
  stdin (world st) = [] ->
  fst (connect st) = Raises (EOFError "EOF when reading a line") /\
  isConnected (snd (connect st)) = up /\
  start_calls (world (snd (connect st))) = S (start_calls (world st)).
Proof.
  intros H2fa Hin. run. rewrite H2fa. unfold connect_handler. run.
  rewrite Hin. repeat split.
Qed.

Lemma connect_without_input_sample :
  fst (connect (mkMachine Sample.lister (Scenario.two_factor [] [])))
    = Raises (EOFError "EOF when reading a line") /\
  start_calls (world (snd (connect (mkMachine Sample.lister
                                      (Scenario.two_factor [] []))))) = 1%nat.
Proof.
  pose proof (connect_two_factor_without_input
                (mkMachine Sample.lister (Scenario.two_factor [] []))
                "password required" true eq_refl eq_refl)
    as (Hret & _ & Hcalls).
  split; assumption.
Defined.

(** Every exception of the first start call other than the request for the
    second factor leaves [connect] as it is, after that single call, and
    [connect] does not close anything: the lister is connected exactly when
    the failed call left the transport open. *)
Theorem connect_failure_keeps_transport_state (st : Machine) (e : exn)
        (link_up : bool) :
  start_reply_at (world st) (start_calls (world st)) = StartRaises e link_up ->
  (forall text, e <> SessionPasswordNeededError text) ->
  fst (connect st) = Raises e /\
  isConnected (snd (connect st)) = link_up /\
  start_calls (world (snd (connect st))) = S (start_calls (world st)).
Proof.
  intros Hbad Hkind. run. rewrite Hbad. unfold connect_handler.
  destruct e as [seconds|text| | | | | |];
    [|exfalso; exact (Hkind text eq_refl)|..];
    cbn [is_Exception]; run; repeat split.
Qed.

Lemma connect_failure_sample :
  fst (connect Sample.flooded_login) = Raises (FloodWaitError 30) /\
  isConnected (snd (connect Sample.flooded_login)) = true /\
  start_calls (world (snd (connect Sample.flooded_login))) = 1%nat.
Proof.
  apply (connect_failure_keeps_transport_state Sample.flooded_login
           (FloodWaitError 30) true eq_refl).
  intros text. discriminate.
Defined.

Lemma connect_with_client (st : Machine) : connect_with None st = connect st.
Proof. reflexivity. Qed.

(** Case analysis on everything the remote and the standard input can answer
    to [connect]. *)
Ltac connect_cases st :=
  run;
  destruct (start_reply_at (world st) (start_calls (world st))) as [|e up];
  [|unfold connect_handler; destruct e; cbn [is_Exception]];
  run;
  try (destruct (stdin (world st)) as [|line more]; run;
       [|destruct (start_reply_at (world st) (S (start_calls (world st))))
           as [|e2 up2]]);
  run.

(** Case analysis on what [connect] does when the constructor raises [e]. *)
Ltac constructor_failure_cases st e :=
  destruct st as [[sn id hash [c|]] w];
  unfold connect_with; run; unfold connect_handler;
  destruct e; cbn [is_Exception]; run;
  try (destruct (stdin w) as [|line more]; run;
       try (destruct (start_reply_at w (start_calls w)) as [|e2 up2]));
  run.

(** [connect] never changes the session name and the credentials of the
    lister.  When the [TelegramClient] constructor returns, then on every
    path that follows the lister ends with a client built from that session
    name and those credentials, replacing any client it had.  When the
    constructor raises, no client is installed: the lister keeps the client
    it had, if any (only its connection flag can have changed, through the
    start call of the two-factor clause). *)
Theorem connect_installs_client_of_lister (constructor : option exn)
        (st : Machine) :
  session_name (self (snd (connect_with constructor st))) = session_name (self st) /\
  api_id (self (snd (connect_with constructor st))) = api_id (self st) /\
  api_hash (self (snd (connect_with constructor st))) = api_hash (self st) /\
  match constructor with
  | None =>
      exists c : TelegramClient,
        client (self (snd (connect_with constructor st))) = Some c /\
        client_session c = session_name (self st) /\
        client_api_id c = api_id (self st) /\
        client_api_hash c = api_hash (self st)
  | Some _ =>
      option_map (set_connected false)
                 (client (self (snd (connect_with constructor st))))
      = option_map (set_connected false) (client (self st))
  end.
Proof.
  destruct constructor as [e|].
  - constructor_failure_cases st e; repeat split.
  - rewrite connect_with_client. connect_cases st; repeat split;
      eexists; repeat split.
Qed.

(** The only network calls [connect] makes are start calls, never a
    disconnect and never a pull of a dialog, and the trace it finds is kept
    and extended.  When the constructor returns there is one start call
    without password and at most one more with the password read at the
    prompt; when the constructor raises there is no start call, but for the
    password call of the two-factor clause on a client the lister already
    had. *)
Theorem connect_makes_only_start_calls (constructor : option exn)
        (st : Machine) :
  exists evs : list event,
    trace (world (snd (connect_with constructor st))) = trace (world st) ++ evs /\
    match constructor with
    | None =>
        network_calls evs = [ClientStart None] \/
        exists line, network_calls evs = [ClientStart None; ClientStart (Some line)]
    | Some _ =>
        network_calls evs = [] \/
        exists line, network_calls evs = [ClientStart (Some line)]
    end.
Proof.
  destruct constructor as [e|].
  - constructor_failure_cases st e; rewrite <- ?app_assoc; cbn [app];
      try (eexists; (split; [reflexivity|]); cbn; now eauto);
      exists []; (split; [now rewrite app_nil_r | now left]).
  - rewrite connect_with_client.
    connect_cases st; rewrite <- ?app_assoc; cbn [app];
      eexists; (split; [reflexivity|]); cbn; eauto.
Qed.

(** When the [TelegramClient] constructor raises an exception that is neither
    a rate-limit signal nor the request for the second factor, [connect]
    raises it again after logging it (for every subclass of [Exception]):
    the lister is left exactly as it was, [self.client] included, and no
    start call is made. *)
Theorem connect_constructor_failure (st : Machine) (e : exn) :
  (forall text, e <> SessionPasswordNeededError text) ->
  (forall seconds, e <> FloodWaitError seconds) ->
  fst (connect_with (Some e) st) = Raises e /\
  self (snd (connect_with (Some e) st)) = self st /\
  start_calls (world (snd (connect_with (Some e) st))) = start_calls (world st) /\
  trace (world (snd (connect_with (Some e) st))) =
    trace (world st)
      ++ (if is_Exception e
          then [Log ERROR ("Failed to connect to Telegram: " +:+ str_exn e)]
          else []).
Proof.
  intros Hkind Hflood. unfold connect_with. run. unfold connect_handler.
  destruct e as [seconds|text| | | | | |];
    [exfalso; exact (Hflood seconds eq_refl)
    |exfalso; exact (Hkind text eq_refl)|..];
    cbn [is_Exception]; run; rewrite ?app_nil_r; repeat split.
Qed.

Lemma connect_constructor_failure_sample :
  fst (connect_with (Some (RemoteError "unable to open database file"))
         (mkMachine Sample.lister (Sample.calm [])))
    = Raises (RemoteError "unable to open database file") /\
  self (snd (connect_with (Some (RemoteError "unable to open database file"))
               (mkMachine Sample.lister (Sample.calm [])))) = Sample.lister /\
  start_calls
    (world (snd (connect_with (Some (RemoteError "unable to open database file"))
                   (mkMachine Sample.lister (Sample.calm []))))) = 0%nat /\
  trace
    (world (snd (connect_with (Some (RemoteError "unable to open database file"))
                   (mkMachine Sample.lister (Sample.calm []))))) =
    [] ++ [Log ERROR ("Failed to connect to Telegram: "
                      +:+ "unable to open database file")].
Proof.
  apply (connect_constructor_failure (mkMachine Sample.lister (Sample.calm []))
           (RemoteError "unable to open database file"));
    intros ?; discriminate.
Defined.

(** ** [list_dialogs], beyond the records *)

(** [list_dialogs] only reads the lister and only advances the iterator: on
    every path it leaves the lister, the count of start calls, the standard
    input and the environment as they were. *)
Theorem list_dialogs_keeps_lister (st : Machine) :
  self (snd (list_dialogs st)) = self st /\
  start_calls (world (snd (list_dialogs st))) = start_calls (world st) /\
  stdin (world (snd (list_dialogs st))) = stdin (world st) /\
  environ (world (snd (list_dialogs st))) = environ (world st).
Proof.
  destruct (isConnected st) eqn:Hc.
  - destruct (feed_shape (dialog_feed (world st)))
      as [[ds Hfeed] | (ds & e & rest & Hfeed)].
    + rewrite (list_dialogs_all_delivered st ds Hc Hfeed). repeat split.
    + rewrite (list_dialogs_fault st ds e rest Hc Hfeed).
      unfold list_dialogs_handler.
      destruct e; cbn [is_Exception]; run; repeat split.
  - rewrite (list_dialogs_offline st Hc). repeat split.
Qed.

(** [list_dialogs] returns a list exactly when the lister is connected and
    the iterator raises nothing; in every other case it raises. *)
Theorem list_dialogs_returns_iff (st : Machine) :
  (exists rs, fst (list_dialogs st) = Returns rs) <->
  (isConnected st = true /\ exists ds, dialog_feed (world st) = map Deliver ds).
Proof.
  split.
  - intros [rs Hrs]. destruct (isConnected st) eqn:Hc.
    + split; [reflexivity|].
      destruct (feed_shape (dialog_feed (world st)))
        as [[ds Hfeed] | (ds & e & rest & Hfeed)]; [eauto|].
      rewrite (list_dialogs_fault st ds e rest Hc Hfeed) in Hrs.
      rewrite list_dialogs_handler_raises in Hrs. discriminate.
    + rewrite (list_dialogs_offline st Hc) in Hrs. discriminate.
  - intros [Hc [ds Hfeed]]. exists (map dialog_info_of ds).
    now rewrite (list_dialogs_all_delivered st ds Hc Hfeed).
Qed.

(** A listing of [N] dialogs that succeeds asks the iterator [N + 1] times
    (the last call finds the end) and empties it; between the two log lines
    nothing else happens, and the number logged is the number of records
    returned. *)
Theorem list_dialogs_logs_what_it_returns (st : Machine) (ds : list dialog) :
  isConnected st = true ->
  dialog_feed (world st) = map Deliver ds ->
  dialog_feed (world (snd (list_dialogs st))) = [] /\
  trace (world (snd (list_dialogs st))) =
    trace (world st) ++ [Log INFO "Fetching dialogs..."]
      ++ repeat ClientNextDialog (S (length ds))
      ++ [Log INFO ("Found " +:+ pretty (length (received (fst (list_dialogs st))))
                    +:+ " dialogs")].
Proof.
  intros Hc Hfeed. rewrite (list_dialogs_all_delivered st ds Hc Hfeed).
  split; reflexivity.
Qed.

Lemma list_dialogs_logs_sample :
  dialog_feed (world (snd (list_dialogs Sample.listing))) = [] /\
  trace (world (snd (list_dialogs Sample.listing))) =
    [] ++ [Log INFO "Fetching dialogs..."]
      ++ repeat ClientNextDialog 5
      ++ [Log INFO ("Found " +:+ pretty (length (received (fst (list_dialogs Sample.listing))))
                    +:+ " dialogs")].
Proof.
  exact (list_dialogs_logs_what_it_returns Sample.listing
           [Sample.alice; Sample.news; Sample.team; Sample.nameless]
           eq_refl eq_refl).
Defined.

(** ** [disconnect], in detail *)

(** The state [disconnect] leaves on a connected lister. *)
Lemma disconnect_connected_state (st : Machine) (c : TelegramClient) :
  client (self st) = Some c ->
  connected c = true ->
  disconnect st =
  (Returns tt,
   mkMachine (set_client (Some (set_connected false c)) (self st))
             (set_trace (trace (world st)
                           ++ [ClientDisconnect; Log INFO "Disconnected from Telegram"])
                        (world st))).
Proof.
  intros Hcl Hup. destruct st as [[sn id hash cl] w].
  cbn in Hcl. subst cl. destruct c as [cs ci ch up]. cbn in Hup. subst up.
  run. rewrite <- !app_assoc. reflexivity.
Qed.

(** On a connected lister [disconnect] makes one disconnect call and logs it;
    the client object stays in the lister, with its credentials, marked as
    not connected. *)
Theorem disconnect_closes_and_keeps_client (st : Machine) (c : TelegramClient) :
  client (self st) = Some c ->
  connected c = true ->
  fst (disconnect st) = Returns tt /\
  self (snd (disconnect st)) = set_client (Some (set_connected false c)) (self st) /\
  trace (world (snd (disconnect st))) =
    trace (world st) ++ [ClientDisconnect; Log INFO "Disconnected from Telegram"].
Proof.
  intros Hcl Hup. rewrite (disconnect_connected_state st c Hcl Hup).
  repeat split.
Qed.

Lemma disconnect_closes_sample :
  fst (disconnect Sample.listing) = Returns tt /\
  self (snd (disconnect Sample.listing)) =
    set_client
      (Some (mkClient "telegram_session" "12345" "0123456789abcdef" false))
      Sample.online /\
  trace (world (snd (disconnect Sample.listing)))
    = [] ++ [ClientDisconnect; Log INFO "Disconnected from Telegram"].
Proof.
  exact (disconnect_closes_and_keeps_client Sample.listing
           (mkClient "telegram_session" "12345" "0123456789abcdef" true)
           eq_refl eq_refl).
Defined.

(** After [disconnect], from whatever state, [list_dialogs] raises the
    not-connected error and pulls nothing: a lister that has been
    disconnected lists again only after a new [connect]. *)
Theorem list_dialogs_after_disconnect_raises (st : Machine) :
  fst ((disconnect;; list_dialogs) st) =
    Raises (RuntimeError "Client is not connected. Call connect() first.") /\
  dialog_feed (world (snd ((disconnect;; list_dialogs) st)))
    = dialog_feed (world st).
Proof.
  destruct (disconnect_spec st) as (Hret & Hoff & _).
  unfold mbind, M_bind.
  destruct (disconnect st) as [[[]|e] st1] eqn:Hd; [|discriminate].
  cbn [snd] in Hoff. rewrite (list_dialogs_offline st1 Hoff). cbn [fst snd].
  split; [reflexivity|].
  change st1 with (snd (Returns tt, st1)). rewrite <- Hd.
  destruct st as [[sn id hash [[cs ci ch [|]]|]] w]; reflexivity.
Qed.

(** ** [async with], end to end *)

(** Right-nested lists of events. *)
Ltac flatten_apps :=
  repeat first [rewrite <- app_assoc | rewrite app_nil_r | progress cbn [app]].

Lemma network_calls_app (t1 t2 : list event) :
  network_calls (t1 ++ t2) = network_calls t1 ++ network_calls t2.
Proof. apply List.filter_app. Qed.

Lemma network_calls_pulls (n : nat) :
  network_calls (repeat ClientNextDialog n) = repeat ClientNextDialog n.
Proof. induction n as [|n IH]; cbn; [reflexivity | now f_equal]. Qed.

(** The [except] clauses of [list_dialogs] raise the exception again and do
    nothing but log. *)
Lemma list_dialogs_handler_state (e : exn) (st : Machine) :
  exists logs : list event,
    list_dialogs_handler e st =
    (Raises e, mkMachine (self st) (set_trace (trace (world st) ++ logs) (world st))) /\
    network_calls logs = [].
Proof.
  destruct st as [l w].
  destruct e; unfold list_dialogs_handler; cbn [is_Exception]; run;
    try (eexists; split; [reflexivity|reflexivity]).
  exists []. destruct w; cbn. now rewrite app_nil_r.
Qed.

(** The state [connect] leaves when the first start call is accepted. *)
Lemma connect_ok_state (st : Machine) :
  start_reply_at (world st) (start_calls (world st)) = StartOk ->
  connect st =
  (Returns tt,
   mkMachine
     (set_client (Some (mkClient (session_name (self st)) (api_id (self st))
                                 (api_hash (self st)) true)) (self st))
     (mkWorld (environ (world st)) (start_reply_at (world st))
        (S (start_calls (world st))) (dialog_feed (world st)) (stdin (world st))
        (trace (world st)
           ++ [ClientStart None; Log INFO "Successfully connected to Telegram"]))).
Proof. intros Hok. run. rewrite Hok. run. now rewrite <- !app_assoc. Qed.

(** Once [connect] has returned, [async with] is the body followed by
    [disconnect], and hands on what the body returned or raised. *)
Lemma async_with_after_connect {A} (body : M Machine A) (st st1 : Machine) :
  connect st = (Returns tt, st1) ->
  async_with body st = (fst (body st1), snd (disconnect (snd (body st1)))).
Proof.
  intros Hok. unfold async_with, __aenter__, __aexit__, then_always, mbind, M_bind.
  rewrite Hok. destruct (body st1) as [r st2]. cbn [fst snd].
  destruct (disconnect_spec st2) as (Hret & _).
  destruct (disconnect st2) as [[[]|e] st3]; [reflexivity | discriminate].
Qed.

(** [__aexit__] does not swallow anything: once [connect] has returned, the
    [async with] statement returns what its body returns and raises what its
    body raises, and in both cases the lister ends not connected. *)
Theorem async_with_hands_on_body_outcome {A} (body : M Machine A) (st : Machine) :
  fst (connect st) = Returns tt ->
  fst (async_with body st) = fst (body (snd (connect st))) /\
  isConnected (snd (async_with body st)) = false.
Proof.
  intros Hok. destruct (connect st) as [[[]|e] st1] eqn:Hc; [|discriminate].
  rewrite (async_with_after_connect body st st1 Hc). cbn [fst snd].
  split; [reflexivity | apply disconnect_spec].
Qed.

Lemma async_with_hands_on_sample :
  fst (async_with list_dialogs
         (mkMachine Sample.lister (world Sample.broken_listing)))
  = fst (list_dialogs
           (snd (connect (mkMachine Sample.lister (world Sample.broken_listing))))) /\
  isConnected
    (snd (async_with list_dialogs
            (mkMachine Sample.lister (world Sample.broken_listing)))) = false.
Proof.
  exact (async_with_hands_on_body_outcome list_dialogs
           (mkMachine Sample.lister (world Sample.broken_listing)) eq_refl).
Defined.

(** The whole block of [main] on a remote that accepts the start call and
    lists [N] dialogs without fault: the table of the [N] records is printed,
    the lister ends not connected, and the network calls are the start call,
    [N + 1] calls of the iterator and one disconnect, in that order. *)
Theorem scoped_listing_prints_and_disconnects (st : Machine) (ds : list dialog) :
  start_reply_at (world st) (start_calls (world st)) = StartOk ->
  dialog_feed (world st) = map Deliver ds ->
  fst (async_with list_and_print st)
    = Returns (print_dialogs (map dialog_info_of ds)) /\
  isConnected (snd (async_with list_and_print st)) = false /\
  network_calls (trace (world (snd (async_with list_and_print st)))) =
    network_calls (trace (world st))
      ++ [ClientStart None] ++ repeat ClientNextDialog (S (length ds))
      ++ [ClientDisconnect].
Proof.
  intros Hok Hfeed.
  rewrite (async_with_after_connect _ st _ (connect_ok_state st Hok)).
  unfold list_and_print, mbind, M_bind, mret, M_ret.
  erewrite (list_dialogs_all_delivered _ ds); [|reflexivity|exact Hfeed].
  cbn [fst snd].
  split; [reflexivity|].
  erewrite disconnect_connected_state; [|reflexivity|reflexivity].
  cbn [fst snd self world trace set_trace set_client client set_connected
       connected isConnected client_connected].
  split; [reflexivity|].
  rewrite !network_calls_app, network_calls_pulls. cbn.
  flatten_apps. reflexivity.
Qed.

Lemma scoped_listing_sample :
  fst (async_with list_and_print
         (mkMachine Sample.lister (world Sample.listing)))
    = Returns (print_dialogs
                 (map dialog_info_of
                    [Sample.alice; Sample.news; Sample.team; Sample.nameless])) /\
  isConnected
    (snd (async_with list_and_print
            (mkMachine Sample.lister (world Sample.listing)))) = false.
Proof.
  pose proof (scoped_listing_prints_and_disconnects
                (mkMachine Sample.lister (world Sample.listing))
                [Sample.alice; Sample.news; Sample.team; Sample.nameless]
                eq_refl eq_refl) as (Hret & Hoff & _).
  split; assumption.
Defined.

(** The same block when the iterator raises [e] after the dialogs [ds]:
    nothing is printed, [e] leaves the statement, and the disconnect is still
    made, as the last network call. *)
Theorem scoped_listing_failure_disconnects (st : Machine) (ds : list dialog)
        (e : exn) (rest : list feed_item) :
  start_reply_at (world st) (start_calls (world st)) = StartOk ->
  dialog_feed (world st) = map Deliver ds ++ Fault e :: rest ->
  fst (async_with list_and_print st) = Raises e /\
  isConnected (snd (async_with list_and_print st)) = false /\
  network_calls (trace (world (snd (async_with list_and_print st)))) =
    network_calls (trace (world st))
      ++ [ClientStart None] ++ repeat ClientNextDialog (S (length ds))
      ++ [ClientDisconnect].
Proof.
  intros Hok Hfeed.
  rewrite (async_with_after_connect _ st _ (connect_ok_state st Hok)).
  unfold list_and_print, mbind, M_bind, mret, M_ret.
  erewrite (list_dialogs_fault _ ds e rest); [|reflexivity|exact Hfeed].
  match goal with
  | |- context [list_dialogs_handler e ?s] =>
      destruct (list_dialogs_handler_state e s) as (logs & -> & Hlogs)
  end.
  cbn [fst snd]. split; [reflexivity|].
  erewrite disconnect_connected_state; [|reflexivity|reflexivity].
  cbn [fst snd self world trace set_trace set_client client set_connected
       connected isConnected client_connected].
  split; [reflexivity|].
  rewrite !network_calls_app, network_calls_pulls, Hlogs. cbn.
  flatten_apps. reflexivity.
Qed.

Lemma scoped_listing_failure_sample :
  fst (async_with list_and_print
         (mkMachine Sample.lister (world Sample.flooded_listing)))
    = Raises (FloodWaitError 5) /\
  isConnected
    (snd (async_with list_and_print
            (mkMachine Sample.lister (world Sample.flooded_listing)))) = false.
Proof.
  pose proof (scoped_listing_failure_disconnects
                (mkMachine Sample.lister (world Sample.flooded_listing))
                [Sample.alice] (FloodWaitError 5) [Deliver Sample.news]
                eq_refl eq_refl) as (Hret & Hoff & _).
  split; assumption.
Defined.

(** When the first start call raises (anything but the request for the second
    factor) with the transport open, the [async with] statement raises that
    exception for every body: the body is not run, no disconnect is made, and
    the lister is left connected. *)
Theorem async_with_failed_start_skips_release {A} (body : M Machine A)
        (st : Machine) (e : exn) :
  start_reply_at (world st) (start_calls (world st)) = StartRaises e true ->
  (forall text, e <> SessionPasswordNeededError text) ->
  fst (async_with body st) = Raises e /\
  isConnected (snd (async_with body st)) = true /\
  network_calls (trace (world (snd (async_with body st))))
    = network_calls (trace (world st)) ++ [ClientStart None].
Proof.
  intros Hbad Hkind.
  unfold async_with, __aenter__, then_always, mbind, M_bind.
  run. rewrite Hbad. unfold connect_handler.
  destruct e as [seconds|text| | | | | |];
    [|exfalso; exact (Hkind text eq_refl)|..];
    cbn [is_Exception]; run;
    rewrite ?network_calls_app; cbn; rewrite ?app_nil_r; repeat split.
Qed.

Lemma async_with_failed_start_sample :
  fst (async_with list_and_print Sample.flooded_login) = Raises (FloodWaitError 30) /\
  isConnected (snd (async_with list_and_print Sample.flooded_login)) = true /\
  network_calls (trace (world (snd (async_with list_and_print Sample.flooded_login))))
    = network_calls [] ++ [ClientStart None].
Proof.
  apply (async_with_failed_start_skips_release list_and_print Sample.flooded_login
           (FloodWaitError 30) eq_refl).
  intros text. discriminate.
Defined.

(** ** The table of [print_dialogs] *)

Lemma len_append (a b : string) :
  PyStr.len (a +:+ b) = (PyStr.len a + PyStr.len b)%nat.
Proof.
  induction a as [|c a IH]; simpl; [reflexivity|].
  destruct (PyStr.is_continuation c); now rewrite IH.
Qed.

Lemma len_le_length (s : string) : (PyStr.len s <= String.length s)%nat.
Proof.
  induction s as [|c s IH]; simpl; [lia|].
  destruct (PyStr.is_continuation c); lia.
Qed.

Lemma len_spaces (n : nat) : PyStr.len (str_times " " n) = n.
Proof. induction n as [|n IH]; simpl; [reflexivity | now f_equal]. Qed.

Lemma ljust_len (s : string) (width : nat) :
  PyStr.len (ljust s width) = Nat.max (PyStr.len s) width.
Proof. unfold ljust. rewrite len_append, len_spaces. lia. Qed.

Lemma table_line_len (c1 c2 c3 c4 : string) :
  PyStr.len (table_line c1 c2 c3 c4) =
  (Nat.max (PyStr.len c1) 25 + Nat.max (PyStr.len c2) 30
   + Nat.max (PyStr.len c3) 12 + Nat.max (PyStr.len c4) 8 + 9)%nat.
Proof.
  unfold table_line. rewrite !len_append, !ljust_len.
  change (PyStr.len " | ") with 3%nat. lia.
Qed.

(** A slice shorter than the text cuts it between two characters. *)
Lemma take_split (s : string) :
  forall n : nat,
    (n < PyStr.len s)%nat ->
    exists rest : string,
      s = PyStr.take n s +:+ rest /\
      PyStr.len (PyStr.take n s) = n /\
      PyStr.starts_character rest = true.
Proof.
  induction s as [|c s IH]; intros n Hn; simpl in Hn; [lia|].
  simpl. destruct (PyStr.is_continuation c) eqn:Hc.
  - destruct (IH n Hn) as (rest & Hs & Hlen & Hrest).
    exists rest. simpl. rewrite Hc. repeat split; [|assumption..].
    exact (f_equal (String c) Hs).
  - destruct n as [|n].
    + exists (String c s). simpl. now rewrite Hc.
    + destruct (IH n ltac:(lia)) as (rest & Hs & Hlen & Hrest).
      exists rest. simpl. rewrite Hc. repeat split;
        [exact (f_equal (String c) Hs) | now f_equal | assumption].
Qed.

Lemma pretty_N_go_head (x : N) :
  forall s, head_not_N s -> head_not_N (pretty_N_go x s).
Proof.
  induction (N.lt_wf_0 x) as [x _ IH]; intros s Hs.
  assert (x = 0 \/ 0 < x)%N as [->|Hpos] by lia.
  - now rewrite pretty_N_go_0.
  - rewrite pretty_N_go_step by assumption. apply IH.
    + now apply N.div_lt.
    + cbn. unfold pretty_N_char. repeat case_match; discriminate.
Qed.

Lemma pretty_Z_head (n : Z) : head_not_N (pretty n).
Proof.
  destruct n as [|p|p]; cbn; try discriminate.
  - unfold pretty, pretty_Z, pretty, pretty_positive, pretty, pretty_N.
    case_decide; [discriminate|]. now apply pretty_N_go_head.
Qed.

(** The members column shows "N/A" exactly when the record has no count or a
    count of zero: zero is treated as missing. *)
Theorem members_cell_na_iff (participant_count : option Z) :
  members_cell participant_count = "N/A" <->
  (participant_count = None \/ participant_count = Some 0).
Proof.
  unfold members_cell. destruct participant_count as [n|]; [|tauto].
  destruct (Z.eqb_spec n 0) as [->|Hn]; [tauto|].
  split.
  - intros Heq. pose proof (pretty_Z_head n) as Hhead.
    rewrite Heq in Hhead. now destruct Hhead.
  - intros [H|H]; congruence.
Qed.

Lemma name_cell_long (name : string) :
  (30 < PyStr.len name)%nat -> PyStr.len (name_cell name) = 33%nat.
Proof.
  intros Hlong. unfold name_cell.
  destruct (Nat.ltb_spec 30 (PyStr.len name)); [|lia].
  destruct (take_split name 30 Hlong) as (rest & _ & Hlen & _).
  rewrite len_append, Hlen. reflexivity.
Qed.

(** The name column.  A name of at most 30 characters is shown as it is.  A
    longer one is cut between its 30th and its 31st character and shown as
    those 30 characters followed by three dots: 33 characters in all, three
    more than the column is wide. *)
Theorem name_cell_keeps_or_truncates (name : string) :
  if (30 <? PyStr.len name)%nat
  then exists head rest : string,
         name = head +:+ rest /\
         PyStr.len head = 30%nat /\
         PyStr.starts_character rest = true /\
         name_cell name = head +:+ "..." /\
         PyStr.len (name_cell name) = 33%nat
  else name_cell name = name.
Proof.
  destruct (Nat.ltb_spec 30 (PyStr.len name)) as [Hlong|Hshort].
  - destruct (take_split name 30 Hlong) as (rest & Hname & Hlen & Hrest).
    exists (PyStr.take 30 name), rest.
    repeat split; try assumption.
    + unfold name_cell. destruct (Nat.ltb_spec 30 (PyStr.len name)); [reflexivity|lia].
    + now apply name_cell_long.
  - unfold name_cell. destruct (Nat.ltb_spec 30 (PyStr.len name)); [lia|reflexivity].
Qed.

(** Every row of the table is at least 84 characters long, the sum of the
    four column widths and the separators, while the rules above and below
    are 80 characters long: no row ever fits under the rules. *)
Theorem dialog_row_wider_than_rules (d : DialogInfo) :
  String.length (str_times "=" 80) = 80%nat /\
  String.length (table_line "Type" "Name" "ID" "Members") = 84%nat /\
  (84 <= String.length (dialog_row d))%nat /\
  PyStr.len (str_times "=" 80) = 80%nat /\
  PyStr.len (table_line "Type" "Name" "ID" "Members") = 84%nat /\
  (84 <= PyStr.len (dialog_row d))%nat.
Proof.
  assert (Hrow : (84 <= PyStr.len (dialog_row d))%nat).
  { unfold dialog_row. rewrite table_line_len. lia. }
  pose proof (len_le_length (dialog_row d)) as Hbytes.
  repeat split; try reflexivity; lia.
Qed.

(** A name longer than 30 characters pushes the rest of its row to the
    right: the row is at least 87 characters long, against 84 for the
    header. *)
Theorem dialog_row_long_name_overflows (d : DialogInfo) :
  (30 < PyStr.len (name d))%nat ->
  (87 <= PyStr.len (dialog_row d))%nat.
Proof.
  intros Hlong. unfold dialog_row. rewrite table_line_len.
  rewrite (name_cell_long (name d) Hlong). lia.
Qed.

Lemma dialog_row_long_name_sample :
  (30 < PyStr.len (name Scenario.long_named))%nat /\
  (87 <= PyStr.len (dialog_row Scenario.long_named))%nat.
Proof.
  assert (H : (30 < PyStr.len (name Scenario.long_named))%nat)
    by (apply Nat.ltb_lt; vm_compute; reflexivity).
  split; [exact H | exact (dialog_row_long_name_overflows Scenario.long_named H)].
Defined.

(** Characters are counted, not bytes: a name of 16 characters in 32 bytes
    is shown whole and padded to the width of its column. *)
Example accented_name_is_kept :
  PyStr.len (name Scenario.accented) = 16%nat /\
  name_cell (name Scenario.accented) = name Scenario.accented /\
  PyStr.len (dialog_row Scenario.accented) = 84%nat.
Proof. repeat split; vm_compute; reflexivity. Qed.

(** [print_dialogs] makes one [print] call for an empty list and [N + 5] for
    a list of [N] records: three header lines, one row per record, the
    closing rule and the total. *)
Theorem print_dialogs_line_count (dialogs : list DialogInfo) :
  length (print_dialogs dialogs) =
  match dialogs with
  | [] => 1%nat
  | _ => (length dialogs + 5)%nat
  end.
Proof.
  destruct dialogs as [|d dialogs]; [reflexivity|].
  unfold print_dialogs. rewrite !length_app, length_map. cbn. lia.
Qed.

(** The rows come in the order of the records: the row of the i-th record is
    the line after the three header lines and the rows before it; and the
    last line gives the number of records. *)
Theorem print_dialogs_rows_in_order (dialogs : list DialogInfo) (i : nat)
        (d : DialogInfo) :
  dialogs !! i = Some d ->
  print_dialogs dialogs !! (3 + i)%nat = Some (dialog_row d) /\
  last (print_dialogs dialogs)
    = Some (String "010" ("Total dialogs: " +:+ pretty (length dialogs))).
Proof.
  intros Hi. destruct dialogs as [|d0 dialogs]; [discriminate|].
  unfold print_dialogs. split.
  - change (map dialog_row (d0 :: dialogs)) with (dialog_row <$> (d0 :: dialogs)).
    rewrite lookup_app_r by (cbn; lia).
    replace (3 + i - _)%nat with i by (cbn; lia).
    rewrite lookup_app_l.
    + now rewrite list_lookup_fmap, Hi.
    + rewrite length_fmap. now apply lookup_lt_Some in Hi.
  - rewrite !app_assoc.
    change [str_times "=" 80;
            String "010" ("Total dialogs: " +:+ pretty (length (d0 :: dialogs)))]
      with ([str_times "=" 80]
            ++ [String "010" ("Total dialogs: " +:+ pretty (length (d0 :: dialogs)))]).
    rewrite !app_assoc. now rewrite last_snoc.
Qed.

Lemma print_dialogs_rows_sample :
  print_dialogs [dialog_info_of Sample.alice; Scenario.long_named] !! 4%nat
    = Some (dialog_row Scenario.long_named) /\
  last (print_dialogs [dialog_info_of Sample.alice; Scenario.long_named])
    = Some (String "010" ("Total dialogs: " +:+ pretty 2%nat)).
Proof.
  exact (print_dialogs_rows_in_order
           [dialog_info_of Sample.alice; Scenario.long_named] 1
           Scenario.long_named eq_refl).
Defined.
